(** * LLM performance-metrics application: prompt builder and orchestrator

    A shallow embedding of [llm_application.py]: the class
    [LLMPerformanceMetrics] with its three methods [_format_query],
    [_call_llm] and [process_query], the module-level credential and the
    console output.

    Python [str] values are modelled as [string] (a sequence of bytes, the
    UTF-8 encoding of the text); concatenation and containment, the only
    string operations of the program, act the same on both. *)

From Stdlib Require Import ZArith Ascii String List.
From stdpp Require Import base option strings gmap.

Local Open Scope string_scope.

(** ** Strings *)

(** The double-quote character, and a text between double quotes. *)
Definition dq : string := String "034"%char "".
Definition Q (s : string) : string := dq +:+ s +:+ dq.

(** The line feed. *)
Definition nl : string := String "010"%char "".

(** [join_lines [l1; ...; ln]] is [l1 \n ... \n ln]. *)
Fixpoint join_lines (ls : list string) : string :=
  match ls with
  | [] => ""
  | [l] => l
  | l :: rest => l +:+ nl +:+ join_lines rest
  end.

(** [s] starts with [p]. *)
Fixpoint starts_with (p s : string) : bool :=
  match p, s with
  | "", _ => true
  | String a p', String b s' => if Ascii.eqb a b then starts_with p' s' else false
  | String _ _, "" => false
  end.

(** Python's [p in s] on two [str]: [p] occurs in [s] as a contiguous run. *)
Fixpoint str_contains (p s : string) : bool :=
  starts_with p s ||
  match s with
  | "" => false
  | String _ s' => str_contains p s'
  end.

(** The same as a proposition: [s] is [before ++ p ++ after]. *)
Definition is_substring (p s : string) : Prop :=
  exists before after, s = before +:+ p +:+ after.

(** ** Exceptions and results *)

(** A raised exception: the qualified names of its class and of the classes
    it inherits from (its method resolution order, most specific first), and
    the text [str(e)] gives. *)
Record PyExc : Type := mkExc {
  exc_mro : list string;
  exc_str : string
}.

(** [isinstance(e, cls)], which is what an [except cls] clause tests. *)
Definition isinstance (e : PyExc) (cls : string) : bool :=
  existsb (String.eqb cls) (exc_mro e).

Definition RequestException : string := "requests.exceptions.RequestException".

Definition exception_mro : list string := ["Exception"; "BaseException"; "object"].

Definition TypeError (msg : string) : PyExc :=
  mkExc ("TypeError" :: exception_mro) msg.
Definition KeyError (msg : string) : PyExc :=
  mkExc ("KeyError" :: "LookupError" :: exception_mro) msg.
Definition NameError (msg : string) : PyExc :=
  mkExc ("NameError" :: exception_mro) msg.
Definition SyntaxError (msg : string) : PyExc :=
  mkExc ("SyntaxError" :: exception_mro) msg.

(** The outcome of evaluating an expression: a value or a raised exception. *)
Inductive Result (A : Type) : Type :=
| Ok (a : A)
| Raise (e : PyExc).
Arguments Ok {A} a.
Arguments Raise {A} e.

(** ** Formatted string literals *)

(** The part of Python's f-string syntax the program uses: literal text,
    the escapes [{{] and [}}] for one brace, and a replacement field
    [{name}] holding a variable name. *)
Inductive fpart : Type :=
| FChar (c : ascii)
| FField (name : string).

Inductive fmode : Type :=
| InText
| SeenOpen
| InField (name : string)
| SeenClose.

Definition is_open (c : ascii) : bool := Ascii.eqb c "{".
Definition is_close (c : ascii) : bool := Ascii.eqb c "}".

Fixpoint fstring_scan (m : fmode) (raw : string) : option (list fpart) :=
  match raw with
  | "" => match m with InText => Some [] | _ => None end
  | String c rest =>
      match m with
      | InText =>
          if is_open c then fstring_scan SeenOpen rest
          else if is_close c then fstring_scan SeenClose rest
          else cons (FChar c) <$> fstring_scan InText rest
      | SeenOpen =>
          if is_open c then cons (FChar c) <$> fstring_scan InText rest
          else if is_close c then None
          else fstring_scan (InField (String c "")) rest
      | InField name =>
          if is_close c then cons (FField name) <$> fstring_scan InText rest
          else if is_open c then None
          else fstring_scan (InField (name +:+ String c "")) rest
      | SeenClose =>
          if is_close c then cons (FChar c) <$> fstring_scan InText rest
          else None
      end
  end.

(** Evaluation in the local variables [locals]: literal characters stand for
    themselves, a field for the [str] its variable holds. *)
Fixpoint fstring_render (locals : gmap string string) (parts : list fpart)
  : Result string :=
  match parts with
  | [] => Ok ""
  | FChar c :: rest =>
      match fstring_render locals rest with
      | Ok s => Ok (String c s)
      | Raise e => Raise e
      end
  | FField name :: rest =>
      match locals !! name with
      | None => Raise (NameError ("name '" +:+ name +:+ "' is not defined"))
      | Some v =>
          match fstring_render locals rest with
          | Ok s => Ok (v +:+ s)
          | Raise e => Raise e
          end
      end
  end.

Definition fstring (raw : string) (locals : gmap string string) : Result string :=
  match fstring_scan InText raw with
  | None => Raise (SyntaxError "f-string: invalid syntax")
  | Some parts => fstring_render locals parts
  end.

(** ** The prompt template *)

(** The text between the triple quotes of the f-string in [_format_query],
    line by line as the source has it (braces still doubled). *)
Definition PROMPT_TEMPLATE_LINES : list string :=
  [ "";
    "        Extract the following details from the query:";
    "        1. Entity (Company name)";
    "        2. Metric (Performance metric like revenue, profit, GMV, etc.)";
    "        3. Start Date (The start of the time period in YYYY-MM-DD format)";
    "        4. End Date (The end of the time period in YYYY-MM-DD format)";
    "";
    "        Example Queries:";
    "        - Query: " +:+ Q "What was Amazon's revenue in 2023?";
    "          Expected Output: [{{";
    "            " +:+ Q "Entity" +:+ ": " +:+ Q "Amazon" +:+ ",";
    "            " +:+ Q "Metric" +:+ ": " +:+ Q "revenue" +:+ ",";
    "            " +:+ Q "Start Date" +:+ ": " +:+ Q "2023-01-01" +:+ ",";
    "            " +:+ Q "End Date" +:+ ": " +:+ Q "2023-12-31";
    "        }}]";
    "";
    "        - Query: " +:+ Q "How much profit did Flipkart make in 2022?";
    "          Expected Output: [{{";
    "            " +:+ Q "Entity" +:+ ": " +:+ Q "Flipkart" +:+ ",";
    "            " +:+ Q "Metric" +:+ ": " +:+ Q "profit" +:+ ",";
    "            " +:+ Q "Start Date" +:+ ": " +:+ Q "2022-01-01" +:+ ",";
    "            " +:+ Q "End Date" +:+ ": " +:+ Q "2022-12-31";
    "        }}]";
    "        Must remember these points :";
    "        Your task is to simply give json output of the query in expected format and nothing else. ";
    "        If the user query does not explicitly mention the start date and/or end date, assume the following defaults:";
    "        - Start Date: Today's date minus one year.";
    "        - End Date: Today's date.";
    "        If query contains multiple companies then create a sepearete object for each company and return the array of object.";
    "        Format will look like this ";
    "        [{{";
    "            " +:+ Q "Entity" +:+ ": " +:+ Q "Flipkart" +:+ ",";
    "            " +:+ Q "Metric" +:+ ": " +:+ Q "profit" +:+ ",";
    "            " +:+ Q "Start Date" +:+ ": " +:+ Q "2022-01-01" +:+ ",";
    "            " +:+ Q "End Date" +:+ ": " +:+ Q "2022-12-31";
    "        }},";
    "        {{";
    "            " +:+ Q "Entity" +:+ ": " +:+ Q "Amazon" +:+ ",";
    "            " +:+ Q "Metric" +:+ ": " +:+ Q "revenue" +:+ ",";
    "            " +:+ Q "Start Date" +:+ ": " +:+ Q "2023-01-01" +:+ ",";
    "            " +:+ Q "End Date" +:+ ": " +:+ Q "2023-12-31";
    "        }}]";
    "        Query: ";
    "        " +:+ Q "{query}";
    "";
    "        " ].

Definition PROMPT_TEMPLATE : string := join_lines PROMPT_TEMPLATE_LINES.

(** The texts the rendered prompt is checked for. *)

Definition AMAZON_QUERY : string := "What was Amazon's revenue in 2023?".
Definition FLIPKART_QUERY : string := "How much profit did Flipkart make in 2022?".
Definition TWO_COMPANY_QUERY : string :=
  "How much profit did Flipkart and Amazon make in 2022?".

(** The first worked example, as it reads in the prompt. *)
Definition EXAMPLE_AMAZON : string :=
  join_lines
    [ "- Query: " +:+ Q AMAZON_QUERY;
      "          Expected Output: [{";
      "            " +:+ Q "Entity" +:+ ": " +:+ Q "Amazon" +:+ ",";
      "            " +:+ Q "Metric" +:+ ": " +:+ Q "revenue" +:+ ",";
      "            " +:+ Q "Start Date" +:+ ": " +:+ Q "2023-01-01" +:+ ",";
      "            " +:+ Q "End Date" +:+ ": " +:+ Q "2023-12-31";
      "        }]" ].

(** The second worked example. *)
Definition EXAMPLE_FLIPKART : string :=
  join_lines
    [ "- Query: " +:+ Q FLIPKART_QUERY;
      "          Expected Output: [{";
      "            " +:+ Q "Entity" +:+ ": " +:+ Q "Flipkart" +:+ ",";
      "            " +:+ Q "Metric" +:+ ": " +:+ Q "profit" +:+ ",";
      "            " +:+ Q "Start Date" +:+ ": " +:+ Q "2022-01-01" +:+ ",";
      "            " +:+ Q "End Date" +:+ ": " +:+ Q "2022-12-31";
      "        }]" ].

(** The instruction to answer with JSON and nothing else. *)
Definition JSON_ONLY_RULE : string :=
  "Your task is to simply give json output of the query in expected format and nothing else.".

(** The default date range, which the prompt gives in words. *)
Definition DEFAULT_DATE_RULE : string :=
  join_lines
    [ "If the user query does not explicitly mention the start date and/or end date, assume the following defaults:";
      "        - Start Date: Today's date minus one year.";
      "        - End Date: Today's date." ].

(** The instruction for a query that names several companies. *)
Definition MULTI_ENTITY_RULE : string :=
  "If query contains multiple companies then create a sepearete object for each company and return the array of object.".

(** The array of two objects the prompt shows after that instruction. *)
Definition MULTI_ENTITY_FORMAT : string :=
  join_lines
    [ "[{";
      "            " +:+ Q "Entity" +:+ ": " +:+ Q "Flipkart" +:+ ",";
      "            " +:+ Q "Metric" +:+ ": " +:+ Q "profit" +:+ ",";
      "            " +:+ Q "Start Date" +:+ ": " +:+ Q "2022-01-01" +:+ ",";
      "            " +:+ Q "End Date" +:+ ": " +:+ Q "2022-12-31";
      "        },";
      "        {";
      "            " +:+ Q "Entity" +:+ ": " +:+ Q "Amazon" +:+ ",";
      "            " +:+ Q "Metric" +:+ ": " +:+ Q "revenue" +:+ ",";
      "            " +:+ Q "Start Date" +:+ ": " +:+ Q "2023-01-01" +:+ ",";
      "            " +:+ Q "End Date" +:+ ": " +:+ Q "2023-12-31";
      "        }]" ].

(** The literal text of a parsed f-string before its first field, and the
    literal text after it. *)
Fixpoint literal_text (parts : list fpart) : string :=
  match parts with
  | FChar c :: rest => String c (literal_text rest)
  | _ => ""
  end.

Fixpoint after_first_field (parts : list fpart) : list fpart :=
  match parts with
  | [] => []
  | FChar _ :: rest => after_first_field rest
  | FField _ :: rest => rest
  end.

Definition template_parts : list fpart :=
  default [] (fstring_scan InText PROMPT_TEMPLATE).

(** What the prompt reads before the query and after it. *)
Definition PROMPT_PREFIX : string := literal_text template_parts.
Definition PROMPT_SUFFIX : string := literal_text (after_first_field template_parts).

(** ** Values *)

(** The response object of the completion library: its generated [text],
    the provider's extra fields, and the last piece of a streamed answer. *)
Record CompletionResponse : Type := mkResponse {
  text : string;
  additional_kwargs : gmap string string;
  delta : option string
}.

(** What [_call_llm] returns: the library's response object, or the
    [dict] from [str] to [str] its [except] clause builds. *)
Inductive PyValue : Type :=
| PyResponse (r : CompletionResponse)
| PyDict (d : gmap string string).

(** [key in v]. A [dict] is searched for the key. The response object
    defines no [__contains__]; it is iterated, which yields its
    (field name, value) pairs, and a pair never equals a [str]. *)
Definition py_contains (key : string) (v : PyValue) : bool :=
  match v with
  | PyResponse _ => false
  | PyDict d => bool_decide (is_Some (d !! key))
  end.

(** [v[key]] for a [str] key. *)
Definition py_getitem (v : PyValue) (key : string) : Result string :=
  match v with
  | PyResponse _ =>
      Raise (TypeError "'CompletionResponse' object is not subscriptable")
  | PyDict d =>
      match d !! key with
      | Some x => Ok x
      | None => Raise (KeyError ("'" +:+ key +:+ "'"))
      end
  end.

(** ** Program state *)

(** A calendar date, as [datetime.date] holds it. *)
Record date : Type := mkDate { year : Z; month : Z; day : Z }.

(** What the process can observe and change: the system clock, the process
    environment, the module global [API_KEY], the class attribute
    [LLMPerformanceMetrics.API_KEY], the attribute [API_KEY] in the
    instance's own dictionary (absent until [__init__] has run), and the
    lines written to standard output, oldest first. *)
Record State : Type := mkState {
  clock : date;
  environ : gmap string string;
  API_KEY : option string;
  LLMPerformanceMetrics_API_KEY : option string;
  self_dict_API_KEY : option (option string);
  stdout : list string
}.

(** [self.API_KEY]: the instance dictionary first, then the class. *)
Definition self_API_KEY (st : State) : option string :=
  match self_dict_API_KEY st with
  | Some v => v
  | None => LLMPerformanceMetrics_API_KEY st
  end.

(** The three places the credential is held in. *)
Definition credentials (st : State)
  : option string * option string * option (option string) :=
  (API_KEY st, LLMPerformanceMetrics_API_KEY st, self_dict_API_KEY st).

(** The state after [lines] have been written to standard output. *)
Definition emit (lines : list string) (st : State) : State :=
  mkState (clock st) (environ st) (API_KEY st)
          (LLMPerformanceMetrics_API_KEY st) (self_dict_API_KEY st)
          (stdout st ++ lines).

(** Computations: state passing with exceptions. *)
Definition M (A : Type) : Type := State -> Result A * State.

Global Instance M_ret : MRet M := fun A a st => (Ok a, st).
Global Instance M_bind : MBind M := fun A B f c st =>
  match c st with
  | (Ok a, st') => f a st'
  | (Raise e, st') => (Raise e, st')
  end.

Definition lift {A} (r : Result A) : M A := fun st => (r, st).
Definition get_state : M State := fun st => (Ok st, st).

(** [print(line)]. *)
Definition print (line : string) : M unit := fun st => (Ok tt, emit [line] st).

(** [try: body  except cls as e: handler e]. *)
Definition try_except {A} (body : M A) (cls : string) (handler : PyExc -> M A)
  : M A := fun st =>
  match body st with
  | (Ok a, st') => (Ok a, st')
  | (Raise e, st') => if isinstance e cls then handler e st' else (Raise e, st')
  end.

(** ** Start of the process *)

(** [load_dotenv()]: the variables of the [.env] file join the environment;
    a variable the environment already has keeps its value. *)
Definition load_dotenv (dotenv environ0 : gmap string string)
  : gmap string string := environ0 ∪ dotenv.

(** Running the module body: [load_dotenv()], the global
    [API_KEY = os.getenv('API_KEY')], then the class body, whose
    [API_KEY = API_KEY] copies the global. *)
Definition module_init (today : date) (dotenv environ0 : gmap string string)
  : State :=
  let env := load_dotenv dotenv environ0 in
  let key := env !! "API_KEY" in
  mkState today env key key None [].

(** [LLMPerformanceMetrics.__init__]: [self.API_KEY = API_KEY]. *)
Definition init : M unit := fun st =>
  (Ok tt,
   mkState (clock st) (environ st) (API_KEY st)
           (LLMPerformanceMetrics_API_KEY st) (Some (API_KEY st))
           (stdout st)).

(** ** The methods *)

Definition MODEL : string := "llama-3.1-8b-instant".

(** [_format_query(self, query)]: the f-string, with [query] among the
    local variables. *)
Definition _format_query (query : string) : M string :=
  lift (fstring PROMPT_TEMPLATE {[ "query" := query ]}).

Section Methods.

(** The completion library: the client object [Groq(model, api_key)]
    builds, and its method [complete(prompt)], which talks to the remote
    service and returns a response object. Either may raise. *)
Variable LLM : Type.
Variable Groq : string -> option string -> Result LLM.
Variable complete : LLM -> string -> Result CompletionResponse.

(** The two statements of the [try] body in [_call_llm]:
    [llm = Groq(model=..., api_key=...)] and
    [response = llm.complete(prompt)]. *)
Definition transport (api_key : option string) (prompt : string)
  : Result CompletionResponse :=
  match Groq MODEL api_key with
  | Ok llm => complete llm prompt
  | Raise e => Raise e
  end.

Definition call_llm_try (prompt : string) : M PyValue :=
  st ← get_state;
  response ← lift (transport (self_API_KEY st) prompt);
  mret (PyResponse response).

(** The [except requests.exceptions.RequestException as e] clause. *)
Definition call_llm_except (e : PyExc) : M PyValue :=
  _ ← print ("Error calling LLM API: " +:+ exc_str e);
  mret (PyDict {[ "error" :=
                  "Failed to retrieve data from the LLM API : " +:+ exc_str e ]}).

(** [_call_llm(self, query)]: the prompt is built first, outside the
    [try]. *)
Definition _call_llm (query : string) : M PyValue :=
  prompt ← _format_query query;
  try_except (call_llm_try prompt) RequestException call_llm_except.

(** [process_query(self, query)]. Both branches end in
    [return llm_response]. *)
Definition process_query (query : string) : M PyValue :=
  _ ← print "Processing Query...";
  llm_response ← _call_llm query;
  if py_contains "error" llm_response then
    err ← lift (py_getitem llm_response "error");
    _ ← print ("Error: " +:+ err);
    mret llm_response
  else
    _ ← print "Query Processed Successfully!";
    mret llm_response.

End Methods.

(** ** The dates the specification speaks of *)

(** The program imports [datetime] and [timedelta] and calls neither. The
    definitions of this module do not embed program code: they follow the
    specification's words, "two ISO-format dates, EndDate == today and
    StartDate == today - 365 days", with the arithmetic of Python's
    [datetime.date], so that the prompt can be compared with them. *)
Module SpecDates.

Local Open Scope Z_scope.

Definition _is_leap (y : Z) : bool :=
  (y mod 4 =? 0) && (negb (y mod 100 =? 0) || (y mod 400 =? 0)).

Definition _days_before_year (y : Z) : Z :=
  let y := y - 1 in y * 365 + y / 4 - y / 100 + y / 400.

Definition _DAYS_IN_MONTH : list Z :=
  [-1; 31; 28; 31; 30; 31; 30; 31; 31; 30; 31; 30; 31].

Definition _DAYS_BEFORE_MONTH : list Z :=
  [-1; 0; 31; 59; 90; 120; 151; 181; 212; 243; 273; 304; 334].

Definition table (t : list Z) (i : Z) : Z := nth (Z.to_nat i) t 0.

Definition _days_before_month (y m : Z) : Z :=
  table _DAYS_BEFORE_MONTH m + (if (2 <? m) && _is_leap y then 1 else 0).

Definition _ymd2ord (y m d : Z) : Z :=
  _days_before_year y + _days_before_month y m + d.

Definition _DI400Y : Z := 146097.
Definition _DI100Y : Z := 36524.
Definition _DI4Y : Z := 1461.
Definition _MAXORDINAL : Z := 3652059.

Definition _ord2ymd (n : Z) : date :=
  let n := n - 1 in
  let n400 := n / _DI400Y in
  let n := n mod _DI400Y in
  let n100 := n / _DI100Y in
  let n := n mod _DI100Y in
  let n4 := n / _DI4Y in
  let n := n mod _DI4Y in
  let n1 := n / 365 in
  let n := n mod 365 in
  let y := n400 * 400 + 1 + n100 * 100 + n4 * 4 + n1 in
  if (n1 =? 4) || (n100 =? 4) then mkDate (y - 1) 12 31
  else
    let leapyear := (n1 =? 3) && (negb (n4 =? 24) || (n100 =? 3)) in
    let m := Z.shiftr (n + 50) 5 in
    let preceding :=
      table _DAYS_BEFORE_MONTH m + (if (2 <? m) && leapyear then 1 else 0) in
    if n <? preceding then
      let m := m - 1 in
      let preceding :=
        preceding
        - (table _DAYS_IN_MONTH m + (if (m =? 2) && leapyear then 1 else 0)) in
      mkDate y m (n - preceding + 1)
    else mkDate y m (n - preceding + 1).

Definition toordinal (d : date) : Z := _ymd2ord (year d) (month d) (day d).

(** [d - timedelta(days=n)]; [None] stands for the [OverflowError] of a
    result outside the calendar. *)
Definition minus_days (d : date) (n : Z) : option date :=
  let o := toordinal d - n in
  if (0 <? o) && (o <=? _MAXORDINAL) then Some (_ord2ymd o) else None.

Definition digit (n : Z) : string :=
  String (ascii_of_nat (48 + Z.to_nat (n mod 10))) "".

(** [d.isoformat()], that is ["%04d-%02d-%02d" % (year, month, day)], for
    a year of at most four digits. *)
Definition isoformat (d : date) : string :=
  (digit (year d / 1000) +:+ digit (year d / 100) +:+ digit (year d / 10)
     +:+ digit (year d)
   +:+ "-" +:+ digit (month d / 10) +:+ digit (month d)
   +:+ "-" +:+ digit (day d / 10) +:+ digit (day d))%string.

(** The specification's property of a prompt built on the day [today]:
    it holds the ISO text of [today] (the end date) and of [today] minus
    365 days (the start date). *)
Definition holds_default_dates (today : date) (prompt : string) : Prop :=
  exists start,
    minus_days today 365 = Some start
    /\ is_substring (isoformat today) prompt
    /\ is_substring (isoformat start) prompt.

End SpecDates.

(** ** Inputs used in examples *)

(** The day the source file is dated, 25 December 2024. *)
Definition christmas_2024 : date := mkDate 2024 12 25.

Definition state_at (today : date) (key : option string) : State :=
  mkState today ∅ key key (Some key) [].

Definition a_key : option string := Some "gsk_example".

(** A client whose constructor succeeds. *)
Definition Groq_client (model : string) (api_key : option string)
  : Result unit := Ok tt.

(** A service that answers every prompt with the same response. *)
Definition complete_with (r : CompletionResponse) (llm : unit) (prompt : string)
  : Result CompletionResponse := Ok r.

(** A service that fails every call with the exception [e]. *)
Definition complete_raising (e : PyExc) (llm : unit) (prompt : string)
  : Result CompletionResponse := Raise e.

(** [requests.exceptions.ConnectionError("connection refused")]. *)
Definition connection_error : PyExc :=
  mkExc [ "requests.exceptions.ConnectionError";
          "requests.exceptions.RequestException";
          "OSError"; "Exception"; "BaseException"; "object" ]
        "connection refused".

(** [ValueError("bad model name")]. *)
Definition value_error : PyExc :=
  mkExc ("ValueError" :: exception_mro) "bad model name".

(** A response whose text is no JSON array and mentions an error. *)
Definition odd_response : CompletionResponse :=
  mkResponse "error: I cannot answer that" ∅ None.

(** The state of a process started on that day with a credential. *)
Definition started_state : State := state_at christmas_2024 a_key.

(** The error wrapper [_call_llm] builds for that connection failure, and
    the state it leaves when called after the first status line. *)
Definition refused_wrapper : PyValue :=
  PyDict {[ "error" :=
            "Failed to retrieve data from the LLM API : connection refused" ]}.

Definition refused_state : State :=
  emit [ "Processing Query..."; "Error calling LLM API: connection refused" ]
       started_state.

(** The operations of the instance, and running a sequence of them. *)
Inductive operation : Type :=
| Op_format_query (query : string)
| Op_call_llm (query : string)
| Op_process_query (query : string).

Definition run_op {LLM : Type} (Groq : string -> option string -> Result LLM)
    (complete : LLM -> string -> Result CompletionResponse)
    (op : operation) (st : State) : State :=
  match op with
  | Op_format_query q => snd (_format_query q st)
  | Op_call_llm q => snd (_call_llm LLM Groq complete q st)
  | Op_process_query q => snd (process_query LLM Groq complete q st)
  end.

Definition run_ops {LLM : Type} (Groq : string -> option string -> Result LLM)
    (complete : LLM -> string -> Result CompletionResponse)
    (ops : list operation) (st : State) : State :=
  fold_left (fun s op => run_op Groq complete op s) ops st.

(** The status line [process_query] prints for the value [_call_llm] gave. *)
Definition status_line (v : PyValue) : string :=
  if py_contains "error" v then
    "Error: " +:+ match py_getitem v "error" with Ok err => err | Raise _ => "" end
  else "Query Processed Successfully!".

(** ** The command line *)

Definition EOFError (msg : string) : PyExc :=
  mkExc ("EOFError" :: exception_mro) msg.

Definition INPUT_PROMPT : string :=
  "Enter your query (e.g., What was Microsoft's revenue in 2023?): ".

(** [input(prompt)]: the prompt is shown on the terminal and one line is
    read. [typed] is what the read gives: the line without its line end, or
    the exception raised at the end of the input. The prompt is no line
    [print] wrote, and [stdout] does not record it. *)
Definition input (typed : Result string) (prompt : string) : M string :=
  lift typed.

Section Main.

Variable LLM : Type.
Variable Groq : string -> option string -> Result LLM.
Variable complete : LLM -> string -> Result CompletionResponse.

(** The built-in [str] on the value [process_query] returned, which is the
    text [print(result)] writes. *)
Variable py_str : PyValue -> string.

(** [main()]: a new instance, one line of input, one query, and the result
    printed. *)
Definition main (typed : Result string) : M unit :=
  _ ← init;
  query ← input typed INPUT_PROMPT;
  result ← process_query LLM Groq complete query;
  print (py_str result).

(** The file run as a script: the module body, then [main()] under
    [if __name__ == "__main__"]. *)
Definition script (today : date) (dotenv environ0 : gmap string string)
    (typed : Result string) : Result unit * State :=
  main typed (module_init today dotenv environ0).

End Main.

(** A client that can be built for the model of the program only. *)
Definition Groq_one_model (model : string) (api_key : option string)
  : Result unit :=
  if String.eqb model MODEL then Ok tt else Raise value_error.

(** A service that answers the prompt built for [q] with [r] and fails on
    every other prompt. *)
Definition complete_only_for (q : string) (r : CompletionResponse)
    (llm : unit) (prompt : string) : Result CompletionResponse :=
  if String.eqb prompt (PROMPT_PREFIX +:+ q +:+ PROMPT_SUFFIX) then Ok r
  else Raise connection_error.

(** [str] of a result, as far as the examples need it: the text of a
    response, and a fixed word for a dictionary. *)
Definition example_str (v : PyValue) : string :=
  match v with
  | PyResponse r => text r
  | PyDict _ => "{...}"
  end.

(** The end of the input, as [input] raises it. *)
Definition end_of_input : PyExc := EOFError "EOF when reading a line".

(** An environment that holds the credential. *)
Definition example_environ : gmap string string :=
  {[ "API_KEY" := "gsk_example" ]}.

(** The state in which a script started from the environment [environ0] and
    the [.env] variables [dotenv] ends, with the [lines] it printed. *)
Definition script_state (today : date) (dotenv environ0 : gmap string string)
    (lines : list string) : State :=
  let key := load_dotenv dotenv environ0 !! "API_KEY" in
  mkState today (load_dotenv dotenv environ0) key key (Some key) lines.

(** * Properties *)

(** ** Containment *)

Lemma append_cons (x : ascii) (a b : string) :
  String x a +:+ b = String x (a +:+ b).
Proof. reflexivity. Qed.

Lemma string_app_assoc (a b c : string) : (a +:+ b) +:+ c = a +:+ (b +:+ c).
Proof.
  induction a as [|x a IH]; [reflexivity |].
  now rewrite !append_cons, IH.
Qed.

Lemma starts_with_spec (p s : string) :
  starts_with p s = true <-> exists r, s = p +:+ r.
Proof.
  revert s; induction p as [|a p IH]; intros s; simpl.
  - split; [intros _; now exists s | reflexivity].
  - destruct s as [|b s].
    + split; [discriminate | intros [r Hr]; rewrite append_cons in Hr; discriminate].
    + destruct (Ascii.eqb_spec a b) as [->|Hab].
      * rewrite IH. split; intros [r Hr]; exists r.
        -- now rewrite append_cons, Hr.
        -- rewrite append_cons in Hr. now injection Hr.
      * split; [discriminate |].
        intros [r Hr]. rewrite append_cons in Hr. injection Hr. intros _ E.
        now destruct Hab.
Qed.

Lemma str_contains_spec (p s : string) :
  str_contains p s = true <-> is_substring p s.
Proof.
  unfold is_substring. induction s as [|b s IH].
  - simpl. rewrite orb_false_r, starts_with_spec. split.
    + intros [r Hr]. now exists "", r.
    + intros ([|x before] & after & H); [now exists after |].
      rewrite append_cons in H. discriminate.
  - cbn [str_contains]. rewrite orb_true_iff, starts_with_spec, IH. split.
    + intros [[r Hr] | (before & after & H)].
      * now exists "", r.
      * exists (String b before), after. now rewrite append_cons, H.
    + intros ([|x before] & after & H).
      * left. now exists after.
      * right. rewrite append_cons in H. injection H as _ H.
        now exists before, after.
Qed.

Lemma is_substring_middle (a q b : string) : is_substring q (a +:+ q +:+ b).
Proof. now exists a, b. Qed.

Lemma is_substring_left (p a b : string) :
  is_substring p a -> is_substring p (a +:+ b).
Proof.
  intros (x & y & ->). exists x, (y +:+ b).
  now rewrite !string_app_assoc.
Qed.

Lemma is_substring_trans (p q s : string) :
  is_substring p q -> is_substring q s -> is_substring p s.
Proof.
  intros (x & y & ->) (u & v & ->). exists (u +:+ x), (y +:+ v).
  now rewrite !string_app_assoc.
Qed.

(** ** The prompt builder *)

(** The rendered prompt: the constant text before the query, the query as
    it came, the constant text after it; the state is left as it was. *)
Lemma format_query_value (q : string) (st : State) :
  _format_query q st = (Ok (PROMPT_PREFIX +:+ q +:+ PROMPT_SUFFIX), st).
Proof. vm_compute. reflexivity. Qed.

Lemma PROMPT_SUFFIX_value : PROMPT_SUFFIX = dq +:+ nl +:+ nl +:+ "        ".
Proof. vm_compute. reflexivity. Qed.

(** A text found in the constant part before the query is in every prompt. *)
Lemma in_prefix_in_prompt (p q : string) :
  str_contains p PROMPT_PREFIX = true ->
  is_substring p (PROMPT_PREFIX +:+ q +:+ PROMPT_SUFFIX).
Proof. intros H. apply is_substring_left. now apply str_contains_spec. Qed.

(** C10. There are two constant strings P and S with
    [_format_query q = P ++ q ++ S] for every query [q]: the query is put in
    at one place, as it is, and nothing else of the prompt depends on it. *)
Theorem format_query_constant_template :
  exists P S : string, forall (q : string) (st : State),
    _format_query q st = (Ok (P +:+ q +:+ S), st).
Proof. exists PROMPT_PREFIX, PROMPT_SUFFIX. apply format_query_value. Qed.

(** C8. [_format_query] is total and has no effect: for every query it
    returns a string, raises nothing, and leaves the whole state (the
    credential, the console output) as it was. *)
Theorem format_query_total_pure :
  forall (q : string) (st : State),
    exists prompt : string, _format_query q st = (Ok prompt, st).
Proof. intros q st. eexists. apply format_query_value. Qed.

(** The inputs the claim names: empty, with quotes, with braces, with a
    line feed. *)
Example format_query_empty (st : State) :
  _format_query "" st = (Ok (PROMPT_PREFIX +:+ PROMPT_SUFFIX), st).
Proof. apply format_query_value. Qed.

Example format_query_braces_and_quotes :
  fst (_format_query ("{query} }} {" +:+ dq +:+ nl) (state_at christmas_2024 None))
  = Ok (PROMPT_PREFIX +:+ "{query} }} {" +:+ dq +:+ nl +:+ PROMPT_SUFFIX).
Proof. vm_compute. reflexivity. Qed.

(** C6. Every prompt contains the query text and both worked examples
    word for word; the prompt for "What was Amazon's revenue in 2023?"
    contains "Amazon's revenue in 2023". *)
Theorem format_query_contains_query_and_examples :
  (forall (q : string) (st : State),
     exists prompt : string,
       _format_query q st = (Ok prompt, st)
       /\ is_substring q prompt
       /\ is_substring EXAMPLE_AMAZON prompt
       /\ is_substring EXAMPLE_FLIPKART prompt)
  /\ (forall st : State,
        exists prompt : string,
          _format_query AMAZON_QUERY st = (Ok prompt, st)
          /\ is_substring "Amazon's revenue in 2023" prompt).
Proof.
  split.
  - intros q st. eexists. split; [apply format_query_value |].
    split; [apply is_substring_middle |].
    split; apply in_prefix_in_prompt; vm_compute; reflexivity.
  - intros st. eexists. split; [apply format_query_value |].
    apply (is_substring_trans _ AMAZON_QUERY).
    + apply str_contains_spec. vm_compute. reflexivity.
    + apply is_substring_middle.
Qed.

(** C7. Every prompt, the prompt for a query naming two companies among
    them, contains the instruction to return one object per company in one
    array (with the two-object array shown after it) and the instruction to
    answer with JSON and nothing else. The builder only writes these
    instructions: whatever response comes back for that prompt is handed on
    as it is, whether or not it is an array of two objects. *)
Theorem format_query_contains_instructions :
  (forall (q : string) (st : State),
     exists prompt : string,
       _format_query q st = (Ok prompt, st)
       /\ is_substring MULTI_ENTITY_RULE prompt
       /\ is_substring MULTI_ENTITY_FORMAT prompt
       /\ is_substring JSON_ONLY_RULE prompt)
  /\ (forall st : State,
        exists prompt : string,
          _format_query TWO_COMPANY_QUERY st = (Ok prompt, st)
          /\ is_substring TWO_COMPANY_QUERY prompt
          /\ is_substring MULTI_ENTITY_RULE prompt
          /\ is_substring JSON_ONLY_RULE prompt)
  /\ (forall (r : CompletionResponse) (st : State),
        fst (process_query unit Groq_client (complete_with r)
               TWO_COMPANY_QUERY st)
        = Ok (PyResponse r)).
Proof.
  split; [| split].
  - intros q st. eexists. split; [apply format_query_value |].
    repeat split; apply in_prefix_in_prompt; vm_compute; reflexivity.
  - intros st. eexists. split; [apply format_query_value |].
    split; [apply is_substring_middle |].
    split; apply in_prefix_in_prompt; vm_compute; reflexivity.
  - intros r st.
    cbv [process_query _call_llm mbind M_bind mret M_ret try_except
           call_llm_try get_state lift print transport Groq_client
           complete_with].
    rewrite format_query_value. reflexivity.
Qed.

(** C1, as the code has it. The prompt gives the default date range in
    words only ("Today's date minus one year", "Today's date"); no date is
    computed, and the prompt is the same on every day and in every state. *)
Theorem format_query_default_dates_in_words :
  forall (q : string) (st : State),
    exists prompt : string,
      _format_query q st = (Ok prompt, st)
      /\ is_substring DEFAULT_DATE_RULE prompt
      /\ (forall st' : State, fst (_format_query q st') = Ok prompt).
Proof.
  intros q st. eexists. split; [apply format_query_value |].
  split.
  - apply in_prefix_in_prompt. vm_compute. reflexivity.
  - intros st'. now rewrite format_query_value.
Qed.

(** C1, as stated, fails: built on 25 December 2024 for the query
    "What was Amazon's revenue in 2023?", the prompt contains neither
    "2024-12-25" nor "2023-12-26". *)
Lemma format_query_lacks_todays_dates :
  SpecDates.isoformat christmas_2024 = "2024-12-25"
  /\ (SpecDates.isoformat <$> SpecDates.minus_days christmas_2024 365)
     = Some "2023-12-26"
  /\ ~ (exists prompt : string,
          fst (_format_query AMAZON_QUERY (state_at christmas_2024 a_key))
          = Ok prompt
          /\ SpecDates.holds_default_dates
               (clock (state_at christmas_2024 a_key)) prompt).
Proof.
  split; [vm_compute; reflexivity |].
  split; [vm_compute; reflexivity |].
  intros (prompt & Hp & start & _ & Hend & _).
  rewrite format_query_value in Hp. cbn [fst] in Hp.
  injection Hp as <-.
  apply str_contains_spec in Hend. vm_compute in Hend. discriminate.
Qed.

(** C5. With the current date fixed, two calls of [_format_query] with the
    same query give the same prompt, byte for byte, whatever else differs
    between the two states. *)
Theorem format_query_deterministic :
  forall (q : string) (st1 st2 : State),
    clock st1 = clock st2 ->
    exists prompt : string,
      _format_query q st1 = (Ok prompt, st1)
      /\ _format_query q st2 = (Ok prompt, st2).
Proof.
  intros q st1 st2 _. eexists. split; apply format_query_value.
Qed.

Lemma format_query_deterministic_witness :
  clock (state_at christmas_2024 a_key)
  = clock (emit ["Processing Query..."] (state_at christmas_2024 None))
  /\ exists prompt : string,
       _format_query AMAZON_QUERY (state_at christmas_2024 a_key)
       = (Ok prompt, state_at christmas_2024 a_key)
       /\ _format_query AMAZON_QUERY
            (emit ["Processing Query..."] (state_at christmas_2024 None))
          = (Ok prompt, emit ["Processing Query..."] (state_at christmas_2024 None)).
Proof.
  split; [reflexivity |].
  apply (format_query_deterministic AMAZON_QUERY
           (state_at christmas_2024 a_key)
           (emit ["Processing Query..."] (state_at christmas_2024 None))).
  reflexivity.
Defined.

(** ** The completion invoker and the orchestrator *)

Lemma emit_emit (l1 l2 : list string) (st : State) :
  emit l2 (emit l1 st) = emit (l1 ++ l2) st.
Proof. unfold emit. cbn. now rewrite <- app_assoc. Qed.

Lemma contains_error_wrapper (msg : string) :
  py_contains "error" (PyDict {[ "error" := msg ]}) = true.
Proof.
  unfold py_contains. apply bool_decide_eq_true_2.
  rewrite lookup_singleton_eq. eauto.
Qed.

Lemma getitem_error_wrapper (msg : string) :
  py_getitem (PyDict {[ "error" := msg ]}) "error" = Ok msg.
Proof. unfold py_getitem. now rewrite lookup_singleton_eq. Qed.

Section MethodProperties.

Variable LLM : Type.
Variable Groq : string -> option string -> Result LLM.
Variable complete : LLM -> string -> Result CompletionResponse.

(** What [_call_llm] does, by the outcome of the transport call on the
    built prompt. *)
Lemma call_llm_value (q : string) (st : State) :
  _call_llm LLM Groq complete q st =
  match transport LLM Groq complete (self_API_KEY st)
          (PROMPT_PREFIX +:+ q +:+ PROMPT_SUFFIX) with
  | Ok r => (Ok (PyResponse r), st)
  | Raise e =>
      if isinstance e RequestException then
        (Ok (PyDict {[ "error" :=
                       "Failed to retrieve data from the LLM API : " +:+ exc_str e ]}),
         emit ["Error calling LLM API: " +:+ exc_str e] st)
      else (Raise e, st)
  end.
Proof.
  cbv [_call_llm mbind M_bind mret M_ret try_except call_llm_try
         call_llm_except get_state lift print].
  rewrite format_query_value.
  destruct (transport _ _ _ _ _) as [r | e]; [reflexivity |].
  destruct (isinstance e RequestException); reflexivity.
Qed.

(** The value [_call_llm] returns is a response object, or a [dict] whose
    one key is "error". *)
Lemma call_llm_result_shape (q : string) (st st1 : State) (v : PyValue) :
  _call_llm LLM Groq complete q st = (Ok v, st1) ->
  (exists r, v = PyResponse r)
  \/ (exists msg, v = PyDict {[ "error" := msg ]}).
Proof.
  rewrite call_llm_value.
  destruct (transport _ _ _ _ _) as [r | e].
  - intros [= <- _]. left. now exists r.
  - destruct (isinstance e RequestException); [| discriminate].
    intros [= <- _]. right. eauto.
Qed.

(** What [process_query] does, by the value and state [_call_llm] gives
    after the first status line. *)
Lemma process_query_after_call (q : string) (st : State) :
  process_query LLM Groq complete q st =
  match _call_llm LLM Groq complete q (emit ["Processing Query..."] st) with
  | (Ok v, st1) => (Ok v, emit [status_line v] st1)
  | (Raise e, st1) => (Raise e, st1)
  end.
Proof.
  cbv [process_query mbind M_bind mret M_ret lift print].
  destruct (_call_llm _ _ _ q _) as [[v | e] st1] eqn:Hcall; [| reflexivity].
  apply call_llm_result_shape in Hcall as [[r ->] | [msg ->]].
  - reflexivity.
  - unfold status_line.
    rewrite contains_error_wrapper, getitem_error_wrapper. reflexivity.
Qed.

(** [process_query], by the outcome of the transport call. *)
Lemma process_query_value (q : string) (st : State) :
  process_query LLM Groq complete q st =
  match transport LLM Groq complete (self_API_KEY st)
          (PROMPT_PREFIX +:+ q +:+ PROMPT_SUFFIX) with
  | Ok r =>
      (Ok (PyResponse r),
       emit ["Processing Query..."; "Query Processed Successfully!"] st)
  | Raise e =>
      if isinstance e RequestException then
        (Ok (PyDict {[ "error" :=
                       "Failed to retrieve data from the LLM API : " +:+ exc_str e ]}),
         emit [ "Processing Query...";
                "Error calling LLM API: " +:+ exc_str e;
                "Error: Failed to retrieve data from the LLM API : " +:+ exc_str e ]
              st)
      else (Raise e, emit ["Processing Query..."] st)
  end.
Proof.
  rewrite process_query_after_call, call_llm_value.
  change (self_API_KEY (emit ["Processing Query..."] st)) with (self_API_KEY st).
  destruct (transport _ _ _ _ _) as [r | e].
  - now rewrite emit_emit.
  - destruct (isinstance e RequestException); [| reflexivity].
    unfold status_line.
    rewrite contains_error_wrapper, getitem_error_wrapper, !emit_emit.
    reflexivity.
Qed.

(** C2, as the code has it. When the transport call raises an exception
    of class [requests.exceptions.RequestException] (or of a subclass),
    [process_query] does not raise: it returns the dictionary whose one
    key is "error", with the value "Failed to retrieve data from the LLM
    API : " followed by the exception's message, after printing the two
    error lines. An exception of any other class leaves [process_query]
    as it was raised. *)
Theorem process_query_transport_error :
  forall (q : string) (st : State) (prompt : string) (e : PyExc),
    fst (_format_query q st) = Ok prompt ->
    transport LLM Groq complete (self_API_KEY st) prompt = Raise e ->
    process_query LLM Groq complete q st =
    if isinstance e RequestException then
      (Ok (PyDict {[ "error" :=
                     "Failed to retrieve data from the LLM API : " +:+ exc_str e ]}),
       emit [ "Processing Query...";
              "Error calling LLM API: " +:+ exc_str e;
              "Error: Failed to retrieve data from the LLM API : " +:+ exc_str e ]
            st)
    else (Raise e, emit ["Processing Query..."] st).
Proof.
  intros q st prompt e Hp Ht.
  rewrite format_query_value in Hp. injection Hp as <-.
  now rewrite process_query_value, Ht.
Qed.

(** C3. When the transport call succeeds, [process_query] returns the
    response object the completion call produced, the same in every
    field, whatever its text is; it only prints the two status lines. *)
Theorem process_query_pass_through :
  forall (q : string) (st : State) (prompt : string) (r : CompletionResponse),
    fst (_format_query q st) = Ok prompt ->
    transport LLM Groq complete (self_API_KEY st) prompt = Ok r ->
    process_query LLM Groq complete q st =
    (Ok (PyResponse r),
     emit ["Processing Query..."; "Query Processed Successfully!"] st).
Proof.
  intros q st prompt r Hp Ht.
  rewrite format_query_value in Hp. injection Hp as <-.
  now rewrite process_query_value, Ht.
Qed.

(** C4. [process_query] builds the prompt, hands it to the completion
    invoker, and then looks only at whether "error" is a key of the
    result: that decides the status line it prints, and in both cases the
    value it returns is the result itself. *)
Theorem process_query_sequencing :
  forall (q : string) (st st1 : State) (v : PyValue),
    _call_llm LLM Groq complete q (emit ["Processing Query..."] st) = (Ok v, st1) ->
    (exists prompt : string,
       _format_query q st = (Ok prompt, st)
       /\ forall st' : State,
            _call_llm LLM Groq complete q st' =
            try_except (call_llm_try LLM Groq complete prompt)
              RequestException call_llm_except st')
    /\ process_query LLM Groq complete q st = (Ok v, emit [status_line v] st1)
    /\ (py_contains "error" v = false ->
        status_line v = "Query Processed Successfully!")
    /\ (py_contains "error" v = true ->
        exists err : string,
          py_getitem v "error" = Ok err /\ status_line v = "Error: " +:+ err).
Proof.
  intros q st st1 v Hcall. split; [| split; [| split]].
  - eexists. split; [apply format_query_value |].
    intros st'. cbv [_call_llm mbind M_bind].
    now rewrite format_query_value.
  - now rewrite process_query_after_call, Hcall.
  - intros Hno. unfold status_line. now rewrite Hno.
  - intros Hyes. unfold status_line. rewrite Hyes.
    apply call_llm_result_shape in Hcall as [[r ->] | [msg ->]];
      [discriminate |].
    exists msg. now rewrite getitem_error_wrapper.
Qed.

(** No operation changes the credential. *)
Lemma run_op_credentials (op : operation) (st : State) :
  credentials (run_op Groq complete op st) = credentials st.
Proof.
  destruct op as [q | q | q]; unfold run_op.
  - now rewrite format_query_value.
  - rewrite call_llm_value.
    destruct (transport _ _ _ _ _) as [r | e]; [reflexivity |].
    destruct (isinstance e RequestException); reflexivity.
  - rewrite process_query_value.
    destruct (transport _ _ _ _ _) as [r | e]; [reflexivity |].
    destruct (isinstance e RequestException); reflexivity.
Qed.

(** C9. The credential is read from the environment when the module is
    loaded, and no operation changes it afterwards: after any sequence of
    [_format_query], [_call_llm] and [process_query] calls, the global,
    the class attribute and the instance attribute hold what they held
    before, which for a process started in the usual way is the value of
    the environment variable at the start. *)
Theorem credential_never_modified :
  (forall (ops : list operation) (st : State),
     credentials (run_ops Groq complete ops st) = credentials st)
  /\ (forall (today : date) (dotenv environ0 : gmap string string)
             (ops : list operation),
        let started := snd (init (module_init today dotenv environ0)) in
        self_API_KEY (run_ops Groq complete ops started)
        = load_dotenv dotenv environ0 !! "API_KEY"
        /\ API_KEY (run_ops Groq complete ops started)
           = load_dotenv dotenv environ0 !! "API_KEY").
Proof.
  assert (Hall : forall ops st,
             credentials (run_ops Groq complete ops st) = credentials st).
  { induction ops as [| op ops IH]; intros st; [reflexivity |].
    change (credentials (run_ops Groq complete ops (run_op Groq complete op st))
            = credentials st).
    now rewrite IH, run_op_credentials. }
  split; [exact Hall |].
  intros today dotenv environ0 ops started.
  specialize (Hall ops started).
  unfold credentials in Hall. injection Hall as Hg _ Hs.
  unfold self_API_KEY. rewrite Hs, Hg. now split.
Qed.

End MethodProperties.

(** ** The theorems at concrete inputs *)

(** A connection failure of the [requests] family is turned into the error
    dictionary. *)
Lemma process_query_transport_error_witness :
  fst (_format_query AMAZON_QUERY (state_at christmas_2024 a_key))
  = Ok (PROMPT_PREFIX +:+ AMAZON_QUERY +:+ PROMPT_SUFFIX)
  /\ transport unit Groq_client (complete_raising connection_error)
       (self_API_KEY (state_at christmas_2024 a_key))
       (PROMPT_PREFIX +:+ AMAZON_QUERY +:+ PROMPT_SUFFIX)
     = Raise connection_error
  /\ process_query unit Groq_client (complete_raising connection_error)
       AMAZON_QUERY (state_at christmas_2024 a_key)
     = if isinstance connection_error RequestException then
         (Ok (PyDict {[ "error" :=
                        "Failed to retrieve data from the LLM API : "
                        +:+ exc_str connection_error ]}),
          emit [ "Processing Query...";
                 "Error calling LLM API: " +:+ exc_str connection_error;
                 "Error: Failed to retrieve data from the LLM API : "
                 +:+ exc_str connection_error ]
               (state_at christmas_2024 a_key))
       else (Raise connection_error,
             emit ["Processing Query..."] (state_at christmas_2024 a_key)).
Proof.
  split; [vm_compute; reflexivity |].
  split; [reflexivity |].
  apply (process_query_transport_error unit Groq_client
           (complete_raising connection_error) AMAZON_QUERY
           (state_at christmas_2024 a_key)
           (PROMPT_PREFIX +:+ AMAZON_QUERY +:+ PROMPT_SUFFIX) connection_error).
  - vm_compute; reflexivity.
  - reflexivity.
Defined.

(** C2, as stated, fails: when the transport call raises a [ValueError],
    which is no [RequestException], [process_query] raises it too and
    returns no dictionary. *)
Lemma process_query_reraises_value_error :
  isinstance value_error RequestException = false
  /\ transport unit Groq_client (complete_raising value_error)
       (self_API_KEY (state_at christmas_2024 a_key))
       (PROMPT_PREFIX +:+ AMAZON_QUERY +:+ PROMPT_SUFFIX)
     = Raise value_error
  /\ process_query unit Groq_client (complete_raising value_error)
       AMAZON_QUERY (state_at christmas_2024 a_key)
     = (Raise value_error,
        emit ["Processing Query..."] (state_at christmas_2024 a_key))
  /\ ~ (exists d : gmap string string,
          fst (process_query unit Groq_client (complete_raising value_error)
                 AMAZON_QUERY (state_at christmas_2024 a_key))
          = Ok (PyDict d)).
Proof.
  assert (H : process_query unit Groq_client (complete_raising value_error)
                AMAZON_QUERY (state_at christmas_2024 a_key)
              = (Raise value_error,
                 emit ["Processing Query..."] (state_at christmas_2024 a_key))).
  { now rewrite process_query_value. }
  split; [reflexivity |]. split; [reflexivity |]. split; [exact H |].
  intros [d Hd]. rewrite H in Hd. discriminate.
Qed.

(** A response whose text is no JSON array, and begins with the word
    "error", is returned as it is. *)
Lemma process_query_pass_through_witness :
  fst (_format_query TWO_COMPANY_QUERY (state_at christmas_2024 a_key))
  = Ok (PROMPT_PREFIX +:+ TWO_COMPANY_QUERY +:+ PROMPT_SUFFIX)
  /\ transport unit Groq_client (complete_with odd_response)
       (self_API_KEY (state_at christmas_2024 a_key))
       (PROMPT_PREFIX +:+ TWO_COMPANY_QUERY +:+ PROMPT_SUFFIX)
     = Ok odd_response
  /\ process_query unit Groq_client (complete_with odd_response)
       TWO_COMPANY_QUERY (state_at christmas_2024 a_key)
     = (Ok (PyResponse odd_response),
        emit ["Processing Query..."; "Query Processed Successfully!"]
          (state_at christmas_2024 a_key)).
Proof.
  split; [vm_compute; reflexivity |].
  split; [reflexivity |].
  apply (process_query_pass_through unit Groq_client
           (complete_with odd_response) TWO_COMPANY_QUERY
           (state_at christmas_2024 a_key)
           (PROMPT_PREFIX +:+ TWO_COMPANY_QUERY +:+ PROMPT_SUFFIX) odd_response).
  - vm_compute; reflexivity.
  - reflexivity.
Defined.

(** The error branch of [process_query], reached through a connection
    failure. *)
Lemma process_query_sequencing_witness :
  _call_llm unit Groq_client (complete_raising connection_error) AMAZON_QUERY
    (emit ["Processing Query..."] started_state)
  = (Ok refused_wrapper, refused_state)
  /\ process_query unit Groq_client (complete_raising connection_error)
       AMAZON_QUERY started_state
     = (Ok refused_wrapper, emit [status_line refused_wrapper] refused_state)
  /\ status_line refused_wrapper
     = "Error: Failed to retrieve data from the LLM API : connection refused".
Proof.
  assert (Hcall : _call_llm unit Groq_client (complete_raising connection_error)
                    AMAZON_QUERY (emit ["Processing Query..."] started_state)
                  = (Ok refused_wrapper, refused_state)).
  { vm_compute. reflexivity. }
  split; [exact Hcall |].
  destruct (process_query_sequencing unit Groq_client
              (complete_raising connection_error) AMAZON_QUERY
              started_state refused_state refused_wrapper Hcall)
    as (_ & Hp & _ & Herr).
  split; [exact Hp |].
  destruct (Herr (contains_error_wrapper _)) as (err & Hget & ->).
  unfold refused_wrapper in Hget. rewrite getitem_error_wrapper in Hget.
  now injection Hget as <-.
Defined.

(** On 31 December 2023 the two dates of the specification happen to be
    the end dates of the two worked examples, which every prompt holds. *)
Example format_query_on_2023_12_31 :
  SpecDates.holds_default_dates (mkDate 2023 12 31)
    (PROMPT_PREFIX +:+ TWO_COMPANY_QUERY +:+ PROMPT_SUFFIX).
Proof.
  exists (mkDate 2022 12 31). split; [vm_compute; reflexivity |].
  split; apply in_prefix_in_prompt; vm_compute; reflexivity.
Qed.

(** * Further properties of the code *)

(** ** What a result of [_call_llm] and [process_query] tells *)

Lemma same_credentials_same_key (st1 st2 : State) :
  credentials st1 = credentials st2 -> self_API_KEY st1 = self_API_KEY st2.
Proof.
  unfold credentials, self_API_KEY. intros [= _ Hc Hs]. now rewrite Hc, Hs.
Qed.

Lemma run_ops_credentials {LLM : Type}
    (Groq : string -> option string -> Result LLM)
    (complete : LLM -> string -> Result CompletionResponse)
    (ops : list operation) (st : State) :
  credentials (run_ops Groq complete ops st) = credentials st.
Proof.
  revert st. induction ops as [| op ops IH]; intros st; [reflexivity |].
  change (credentials (run_ops Groq complete ops (run_op Groq complete op st))
          = credentials st).
  now rewrite IH, run_op_credentials.
Qed.

(** X1. [process_query] raises nothing of its own. When it raises, the
    exception is the one the transport call raised, it is no
    [RequestException], and "Processing Query..." is the only line that was
    printed. *)
Theorem process_query_raises_only_from_transport :
  forall (LLM : Type) (Groq : string -> option string -> Result LLM)
         (complete : LLM -> string -> Result CompletionResponse)
         (q : string) (st st1 : State) (e : PyExc),
    process_query LLM Groq complete q st = (Raise e, st1) ->
    transport LLM Groq complete (self_API_KEY st)
      (PROMPT_PREFIX +:+ q +:+ PROMPT_SUFFIX) = Raise e
    /\ isinstance e RequestException = false
    /\ st1 = emit ["Processing Query..."] st.
Proof.
  intros LLM Groq complete q st st1 e. rewrite process_query_value.
  destruct (transport _ _ _ _ _) as [r | e']; [discriminate |].
  destruct (isinstance e' RequestException) eqn:Hi; [discriminate |].
  intros [= <- <-]. auto.
Qed.

Lemma process_query_raises_only_from_transport_witness :
  process_query unit Groq_client (complete_raising value_error)
    AMAZON_QUERY started_state
  = (Raise value_error, emit ["Processing Query..."] started_state)
  /\ transport unit Groq_client (complete_raising value_error)
       (self_API_KEY started_state)
       (PROMPT_PREFIX +:+ AMAZON_QUERY +:+ PROMPT_SUFFIX) = Raise value_error
  /\ isinstance value_error RequestException = false
  /\ emit ["Processing Query..."] started_state
     = emit ["Processing Query..."] started_state.
Proof.
  split; [vm_compute; reflexivity |].
  apply (process_query_raises_only_from_transport unit Groq_client
           (complete_raising value_error) AMAZON_QUERY started_state
           (emit ["Processing Query..."] started_state) value_error).
  vm_compute. reflexivity.
Defined.

(** X2. The result of [_call_llm] tells what the transport call did. A
    response object is the one the call returned, and nothing was printed.
    A dictionary means the call raised a [RequestException]: the dictionary
    holds its message under "error", and one line was printed. A raised
    exception is the call's own, no [RequestException], and nothing was
    printed. *)
Theorem call_llm_result_tells_outcome :
  forall (LLM : Type) (Groq : string -> option string -> Result LLM)
         (complete : LLM -> string -> Result CompletionResponse)
         (q : string) (st st1 : State) (res : Result PyValue),
    _call_llm LLM Groq complete q st = (res, st1) ->
    let outcome := transport LLM Groq complete (self_API_KEY st)
                     (PROMPT_PREFIX +:+ q +:+ PROMPT_SUFFIX) in
    match res with
    | Ok (PyResponse r) => outcome = Ok r /\ st1 = st
    | Ok (PyDict d) =>
        exists e : PyExc,
          outcome = Raise e
          /\ isinstance e RequestException = true
          /\ d = {[ "error" :=
                    "Failed to retrieve data from the LLM API : " +:+ exc_str e ]}
          /\ st1 = emit ["Error calling LLM API: " +:+ exc_str e] st
    | Raise e =>
        outcome = Raise e /\ isinstance e RequestException = false /\ st1 = st
    end.
Proof.
  intros LLM Groq complete q st st1 res. rewrite call_llm_value. cbv zeta.
  destruct (transport _ _ _ _ _) as [r | e].
  - intros [= <- <-]. auto.
  - destruct (isinstance e RequestException) eqn:Hi.
    + intros [= <- <-]. exists e. auto.
    + intros [= <- <-]. auto.
Qed.

Lemma call_llm_result_tells_outcome_witness :
  _call_llm unit Groq_client (complete_raising connection_error) AMAZON_QUERY
    (emit ["Processing Query..."] started_state)
  = (Ok refused_wrapper, refused_state)
  /\ exists e : PyExc,
       transport unit Groq_client (complete_raising connection_error)
         (self_API_KEY (emit ["Processing Query..."] started_state))
         (PROMPT_PREFIX +:+ AMAZON_QUERY +:+ PROMPT_SUFFIX) = Raise e
       /\ isinstance e RequestException = true
       /\ ({[ "error" :=
              "Failed to retrieve data from the LLM API : connection refused" ]}
           : gmap string string)
          = {[ "error" :=
               "Failed to retrieve data from the LLM API : " +:+ exc_str e ]}
       /\ refused_state
          = emit ["Error calling LLM API: " +:+ exc_str e]
              (emit ["Processing Query..."] started_state).
Proof.
  split; [vm_compute; reflexivity |].
  apply (call_llm_result_tells_outcome unit Groq_client
           (complete_raising connection_error) AMAZON_QUERY
           (emit ["Processing Query..."] started_state) refused_state
           (Ok refused_wrapper)).
  vm_compute. reflexivity.
Defined.

(** X3. [process_query] keeps nothing between calls: after any sequence of
    operations, a query gives the value (or the exception) it gives before
    them. *)
Theorem process_query_history_independent :
  forall (LLM : Type) (Groq : string -> option string -> Result LLM)
         (complete : LLM -> string -> Result CompletionResponse)
         (ops : list operation) (q : string) (st : State),
    fst (process_query LLM Groq complete q (run_ops Groq complete ops st))
    = fst (process_query LLM Groq complete q st).
Proof.
  intros LLM Groq complete ops q st. rewrite !process_query_value.
  rewrite (same_credentials_same_key _ st (run_ops_credentials Groq complete ops st)).
  destruct (transport _ _ _ _ _) as [r | e]; [reflexivity |].
  destruct (isinstance e RequestException); reflexivity.
Qed.

(** X4. One query is one transport call: [process_query] looks at the
    client constructor only for the model "llama-3.1-8b-instant" with the
    instance's credential, and at the completion call only for the prompt
    built from the query. Two libraries that agree there give the same
    result and the same output. *)
Theorem process_query_one_transport_call :
  forall (LLM : Type) (Groq1 Groq2 : string -> option string -> Result LLM)
         (complete1 complete2 : LLM -> string -> Result CompletionResponse)
         (q : string) (st : State),
    Groq1 "llama-3.1-8b-instant" (self_API_KEY st)
    = Groq2 "llama-3.1-8b-instant" (self_API_KEY st) ->
    (forall llm : LLM,
       complete1 llm (PROMPT_PREFIX +:+ q +:+ PROMPT_SUFFIX)
       = complete2 llm (PROMPT_PREFIX +:+ q +:+ PROMPT_SUFFIX)) ->
    process_query LLM Groq1 complete1 q st
    = process_query LLM Groq2 complete2 q st.
Proof.
  intros LLM Groq1 Groq2 complete1 complete2 q st HG Hc.
  rewrite !process_query_value. unfold transport.
  change MODEL with "llama-3.1-8b-instant". rewrite HG.
  destruct (Groq2 _ _) as [llm | e]; [| reflexivity].
  now rewrite Hc.
Qed.

Lemma process_query_one_transport_call_witness :
  Groq_client "llama-3.1-8b-instant" (self_API_KEY started_state)
  = Groq_one_model "llama-3.1-8b-instant" (self_API_KEY started_state)
  /\ (forall llm : unit,
        complete_with odd_response llm
          (PROMPT_PREFIX +:+ AMAZON_QUERY +:+ PROMPT_SUFFIX)
        = complete_only_for AMAZON_QUERY odd_response llm
            (PROMPT_PREFIX +:+ AMAZON_QUERY +:+ PROMPT_SUFFIX))
  /\ process_query unit Groq_client (complete_with odd_response)
       AMAZON_QUERY started_state
     = process_query unit Groq_one_model
         (complete_only_for AMAZON_QUERY odd_response)
         AMAZON_QUERY started_state.
Proof.
  split; [reflexivity |].
  split; [intros llm; vm_compute; reflexivity |].
  apply (process_query_one_transport_call unit Groq_client Groq_one_model
           (complete_with odd_response)
           (complete_only_for AMAZON_QUERY odd_response)
           AMAZON_QUERY started_state).
  - reflexivity.
  - intros llm. vm_compute. reflexivity.
Defined.

(** ** More on the prompt *)

Lemma string_length_app (a b : string) :
  String.length (a +:+ b) = (String.length a + String.length b)%nat.
Proof.
  induction a as [| x a IH]; [reflexivity |].
  rewrite append_cons. cbn [String.length]. now rewrite IH.
Qed.

Lemma string_app_inv_head (a x y : string) : a +:+ x = a +:+ y -> x = y.
Proof.
  induction a as [| c a IH]; [trivial |].
  rewrite !append_cons. intros [= H]. now apply IH.
Qed.

Lemma string_app_inv_tail (s x y : string) : x +:+ s = y +:+ s -> x = y.
Proof.
  revert y. induction x as [| c x IH]; intros [| d y] H.
  - reflexivity.
  - apply (f_equal String.length) in H.
    rewrite !string_length_app in H. cbn [String.length] in H. lia.
  - apply (f_equal String.length) in H.
    rewrite !string_length_app in H. cbn [String.length] in H. lia.
  - rewrite !append_cons in H. injection H as -> H. f_equal. now apply IH.
Qed.

(** X5. Different queries give different prompts: when two calls of
    [_format_query] return the same prompt, the queries were the same. *)
Theorem format_query_injective :
  forall (q1 q2 : string) (st1 st2 : State),
    fst (_format_query q1 st1) = fst (_format_query q2 st2) -> q1 = q2.
Proof.
  intros q1 q2 st1 st2. rewrite !format_query_value. cbn [fst].
  intros [= H]. apply string_app_inv_head in H.
  now apply string_app_inv_tail in H.
Qed.

Lemma format_query_injective_witness :
  fst (_format_query TWO_COMPANY_QUERY started_state)
  = fst (_format_query ("How much profit did Flipkart" +:+ " and Amazon make in 2022?")
           refused_state)
  /\ TWO_COMPANY_QUERY
     = "How much profit did Flipkart" +:+ " and Amazon make in 2022?".
Proof.
  split; [vm_compute; reflexivity |].
  apply (format_query_injective TWO_COMPANY_QUERY
           ("How much profit did Flipkart" +:+ " and Amazon make in 2022?")
           started_state refused_state).
  vm_compute. reflexivity.
Defined.

(** X6. The prompt is the query and 1676 bytes of fixed text: its length is
    the length of the query plus 1676, so it is never empty. *)
Theorem format_query_length :
  forall (q : string) (st : State),
    exists prompt : string,
      _format_query q st = (Ok prompt, st)
      /\ String.length prompt = (1676 + String.length q)%nat.
Proof.
  intros q st. eexists. split; [apply format_query_value |].
  rewrite !string_length_app.
  assert (HP : String.length PROMPT_PREFIX = 1665%nat) by (vm_compute; reflexivity).
  assert (HS : String.length PROMPT_SUFFIX = 11%nat) by (vm_compute; reflexivity).
  rewrite HP, HS. lia.
Qed.

(** X7. The query is the last thing of the prompt: every prompt ends with
    the line "Query: ", the query between double quotes on a line of its
    own, an empty line and eight spaces, and what stands before is the same
    for every query. *)
Theorem format_query_ends_with_quoted_query :
  exists head : string, forall (q : string) (st : State),
    _format_query q st =
    (Ok (head +:+ "        Query: " +:+ nl
         +:+ "        " +:+ Q q +:+ nl
         +:+ nl
         +:+ "        "), st).
Proof.
  exists (String.substring 0 1640 PROMPT_PREFIX). intros q st.
  rewrite format_query_value.
  set (head := String.substring 0 1640 PROMPT_PREFIX).
  assert (HP : PROMPT_PREFIX
               = head +:+ "        Query: " +:+ nl +:+ "        " +:+ dq)
    by (vm_compute; reflexivity).
  clearbody head. rewrite HP, PROMPT_SUFFIX_value. unfold Q.
  now rewrite !string_app_assoc.
Qed.

(** ** Output and state *)

Lemma emit_nil (st : State) : emit [] st = st.
Proof. destruct st. unfold emit. cbn. now rewrite app_nil_r. Qed.

Lemma run_op_emits {LLM : Type}
    (Groq : string -> option string -> Result LLM)
    (complete : LLM -> string -> Result CompletionResponse)
    (op : operation) (st : State) :
  exists lines : list string, run_op Groq complete op st = emit lines st.
Proof.
  destruct op as [q | q | q]; unfold run_op.
  - exists []. now rewrite format_query_value, emit_nil.
  - rewrite call_llm_value.
    destruct (transport _ _ _ _ _) as [r | e];
      [exists []; now rewrite emit_nil |].
    destruct (isinstance e RequestException);
      [eexists; reflexivity | exists []; now rewrite emit_nil].
  - rewrite process_query_value.
    destruct (transport _ _ _ _ _) as [r | e]; [eexists; reflexivity |].
    destruct (isinstance e RequestException); eexists; reflexivity.
Qed.

(** X8. The operations only append to standard output: after any sequence
    of [_format_query], [_call_llm] and [process_query] calls the state is
    the state before with some lines added at the end of the output; the
    clock, the environment and the credential are as they were, and no
    line printed earlier is lost. *)
Theorem operations_only_append_output :
  forall (LLM : Type) (Groq : string -> option string -> Result LLM)
         (complete : LLM -> string -> Result CompletionResponse)
         (ops : list operation) (st : State),
    exists lines : list string,
      run_ops Groq complete ops st = emit lines st.
Proof.
  intros LLM Groq complete ops. induction ops as [| op ops IH]; intros st.
  - exists []. now rewrite emit_nil.
  - change (exists lines,
              run_ops Groq complete ops (run_op Groq complete op st)
              = emit lines st).
    destruct (run_op_emits Groq complete op st) as [l1 ->].
    destruct (IH (emit l1 st)) as [l2 ->].
    exists (l1 ++ l2)%list. apply emit_emit.
Qed.

(** X9. [process_query] always prints "Processing Query..." first, and
    after it at most two lines. It prints nothing after it exactly when it
    raises; when it returns, a status line was printed. *)
Theorem process_query_output_lines :
  forall (LLM : Type) (Groq : string -> option string -> Result LLM)
         (complete : LLM -> string -> Result CompletionResponse)
         (q : string) (st : State),
    exists more : list string,
      snd (process_query LLM Groq complete q st)
      = emit ("Processing Query..." :: more) st
      /\ (length more <= 2)%nat
      /\ (more = [] <->
          exists e : PyExc, fst (process_query LLM Groq complete q st) = Raise e).
Proof.
  intros LLM Groq complete q st. rewrite process_query_value.
  destruct (transport _ _ _ _ _) as [r | e].
  - eexists. split; [reflexivity |]. split; [cbn; lia |].
    split; [discriminate | intros [e He]; discriminate].
  - destruct (isinstance e RequestException).
    + eexists. split; [reflexivity |]. split; [cbn; lia |].
      split; [discriminate | intros [e' He]; discriminate].
    + exists []. split; [reflexivity |]. split; [cbn; lia |].
      split; [intros _; now exists e | reflexivity].
Qed.

(** ** The command line *)

Section MainProperties.

Variable LLM : Type.
Variable Groq : string -> option string -> Result LLM.
Variable complete : LLM -> string -> Result CompletionResponse.
Variable py_str : PyValue -> string.

(** [main], by what was typed and by the outcome of the transport call. *)
Lemma script_value (today : date) (dotenv environ0 : gmap string string)
    (typed : Result string) :
  script LLM Groq complete py_str today dotenv environ0 typed =
  match typed with
  | Raise e => (Raise e, script_state today dotenv environ0 [])
  | Ok q =>
      match transport LLM Groq complete (load_dotenv dotenv environ0 !! "API_KEY")
              (PROMPT_PREFIX +:+ q +:+ PROMPT_SUFFIX) with
      | Ok r =>
          (Ok tt,
           script_state today dotenv environ0
             [ "Processing Query..."; "Query Processed Successfully!";
               py_str (PyResponse r) ])
      | Raise e =>
          if isinstance e RequestException then
            (Ok tt,
             script_state today dotenv environ0
               [ "Processing Query...";
                 "Error calling LLM API: " +:+ exc_str e;
                 "Error: Failed to retrieve data from the LLM API : " +:+ exc_str e;
                 py_str (PyDict {[ "error" :=
                     "Failed to retrieve data from the LLM API : " +:+ exc_str e ]}) ])
          else (Raise e, script_state today dotenv environ0 ["Processing Query..."])
      end
  end.
Proof.
  cbv [script main input mbind M_bind lift print init module_init].
  destruct typed as [q | e]; [| reflexivity].
  cbn [fst snd]. rewrite process_query_value.
  cbv [self_API_KEY self_dict_API_KEY].
  destruct (transport _ _ _ _ _) as [r | e]; [reflexivity |].
  destruct (isinstance e RequestException); reflexivity.
Qed.

(** X10. The script on a query that is answered: the client is built with
    the value of the environment variable API_KEY (taken from the [.env]
    file when the environment lacks it, [None] when both do), the script
    ends without an exception, and it printed three lines: "Processing
    Query...", "Query Processed Successfully!" and the response. *)
Theorem script_answered_query :
  forall (today : date) (dotenv environ0 : gmap string string)
         (q : string) (r : CompletionResponse),
    transport LLM Groq complete (load_dotenv dotenv environ0 !! "API_KEY")
      (PROMPT_PREFIX +:+ q +:+ PROMPT_SUFFIX) = Ok r ->
    script LLM Groq complete py_str today dotenv environ0 (Ok q) =
    (Ok tt,
     script_state today dotenv environ0
       [ "Processing Query..."; "Query Processed Successfully!";
         py_str (PyResponse r) ]).
Proof. intros today dotenv environ0 q r H. now rewrite script_value, H. Qed.

(** X11. The script on a query whose transport call raises. For a
    [RequestException] it still ends without an exception, after four
    lines, the last of them the error dictionary. For any other exception
    it ends with that exception after "Processing Query...", and no result
    is printed. *)
Theorem script_failed_query :
  forall (today : date) (dotenv environ0 : gmap string string)
         (q : string) (e : PyExc),
    transport LLM Groq complete (load_dotenv dotenv environ0 !! "API_KEY")
      (PROMPT_PREFIX +:+ q +:+ PROMPT_SUFFIX) = Raise e ->
    script LLM Groq complete py_str today dotenv environ0 (Ok q) =
    if isinstance e RequestException then
      (Ok tt,
       script_state today dotenv environ0
         [ "Processing Query...";
           "Error calling LLM API: " +:+ exc_str e;
           "Error: Failed to retrieve data from the LLM API : " +:+ exc_str e;
           py_str (PyDict {[ "error" :=
               "Failed to retrieve data from the LLM API : " +:+ exc_str e ]}) ])
    else (Raise e, script_state today dotenv environ0 ["Processing Query..."]).
Proof. intros today dotenv environ0 q e H. now rewrite script_value, H. Qed.

(** X12. The script ends with an exception in two cases only: reading the
    line raised it (and then nothing was printed), or the transport call
    for the typed query raised it and it is no [RequestException]. *)
Theorem script_raises_iff :
  forall (today : date) (dotenv environ0 : gmap string string)
         (typed : Result string) (e : PyExc),
    fst (script LLM Groq complete py_str today dotenv environ0 typed) = Raise e
    <->
    (typed = Raise e
     /\ script LLM Groq complete py_str today dotenv environ0 typed
        = (Raise e, script_state today dotenv environ0 []))
    \/ (exists q : string,
          typed = Ok q
          /\ transport LLM Groq complete (load_dotenv dotenv environ0 !! "API_KEY")
               (PROMPT_PREFIX +:+ q +:+ PROMPT_SUFFIX) = Raise e
          /\ isinstance e RequestException = false).
Proof.
  intros today dotenv environ0 typed e. rewrite script_value. split.
  - destruct typed as [q | e0].
    + destruct (transport _ _ _ _ _) as [r | e1] eqn:Ht; [discriminate |].
      destruct (isinstance e1 RequestException) eqn:Hi; [discriminate |].
      intros [= ->]. right. now exists q.
    + intros [= ->]. now left.
  - intros [[-> _] | (q & -> & Ht & Hi)]; [reflexivity |].
    now rewrite Ht, Hi.
Qed.

End MainProperties.

(** The script with the credential in the environment, on a query that is
    answered. *)
Lemma script_answered_query_witness :
  transport unit Groq_client (complete_with odd_response)
    (load_dotenv ∅ example_environ !! "API_KEY")
    (PROMPT_PREFIX +:+ AMAZON_QUERY +:+ PROMPT_SUFFIX) = Ok odd_response
  /\ script unit Groq_client (complete_with odd_response) example_str
       christmas_2024 ∅ example_environ (Ok AMAZON_QUERY)
     = (Ok tt,
        script_state christmas_2024 ∅ example_environ
          [ "Processing Query..."; "Query Processed Successfully!";
            example_str (PyResponse odd_response) ]).
Proof.
  split; [reflexivity |].
  apply (script_answered_query unit Groq_client (complete_with odd_response)
           example_str christmas_2024 ∅ example_environ AMAZON_QUERY odd_response).
  reflexivity.
Defined.

(** The script without a credential, against a service that refuses the
    connection. *)
Lemma script_failed_query_witness :
  transport unit Groq_client (complete_raising connection_error)
    (load_dotenv ∅ ∅ !! "API_KEY")
    (PROMPT_PREFIX +:+ AMAZON_QUERY +:+ PROMPT_SUFFIX) = Raise connection_error
  /\ script unit Groq_client (complete_raising connection_error) example_str
       christmas_2024 ∅ ∅ (Ok AMAZON_QUERY)
     = if isinstance connection_error RequestException then
         (Ok tt,
          script_state christmas_2024 ∅ ∅
            [ "Processing Query...";
              "Error calling LLM API: " +:+ exc_str connection_error;
              "Error: Failed to retrieve data from the LLM API : "
              +:+ exc_str connection_error;
              example_str (PyDict {[ "error" :=
                  "Failed to retrieve data from the LLM API : "
                  +:+ exc_str connection_error ]}) ])
       else (Raise connection_error,
             script_state christmas_2024 ∅ ∅ ["Processing Query..."]).
Proof.
  split; [reflexivity |].
  apply (script_failed_query unit Groq_client (complete_raising connection_error)
           example_str christmas_2024 ∅ ∅ AMAZON_QUERY connection_error).
  reflexivity.
Defined.

(** At the end of the input the script raises [EOFError] whatever the
    library is, and prints nothing. *)
Example script_end_of_input :
  script unit Groq_client (complete_with odd_response) example_str
    christmas_2024 ∅ example_environ (Raise end_of_input)
  = (Raise end_of_input, script_state christmas_2024 ∅ example_environ []).
Proof. now rewrite script_value. Qed.
